(** * Open Library search client: a shallow embedding of
      [lib/open_library_api.py] and the properties of its search method.

    The Python module defines one class, [Search], with three methods that
    build a query URL for [https://openlibrary.org/search.json], issue one
    [requests.get] and return the body in three shapes, followed by a
    module-level script that reads a title, runs the search and prints the
    result.

    Modelling choices.
    - A Python [str] is the [string] of its UTF-8 bytes; an [int] is a [Z].
    - A parsed JSON value is the inductive [json]; a Python [dict] is a
      [gmap string json] (JSON object keys are always strings).
    - An uncaught Python exception is the [Raise] branch of [outcome].
    - The network, standard input and standard output form the [world];
      every effect appends an [event] to the world's [trace]. A call of
      [requests.get] is one event; the GET requests the library sends for
      it, one more per redirect it follows, are counted by [wire_gets]. *)

From Stdlib Require Import ZArith String Ascii List DecimalString.
From Stdlib Require Import Floats.SpecFloat.
From stdpp Require Import base option gmap strings list.

Set Warnings "-register-all".
Local Open Scope string_scope.

(** ** Python strings *)

Module PyStr.

(** The line feed, written [\n] in the Python source. *)
Definition nl : string := String "010" "".

(** A byte of the form [10xxxxxx]: in UTF-8 it continues the code point
    begun before it. *)
Definition is_continuation (b : ascii) : bool :=
  match b with
  | Ascii _ _ _ _ _ _ b6 b7 => b7 && negb b6
  end.

(** The continuation bytes at the head of [s], and the code points after
    them, each with its own bytes. *)
Fixpoint scan (s : string) : string * list string :=
  match s with
  | "" => ("", [])
  | String b s' =>
      let (tail, points) := scan s' in
      if is_continuation b then (String b tail, points)
      else ("", String b tail :: points)
  end.

(** The characters of a [str], which Python counts and indexes by code
    point: each item is the UTF-8 encoding of one code point. *)
Definition code_points (s : string) : list string :=
  let (stray, points) := scan s in
  match stray with
  | "" => points
  | String _ _ => stray :: points
  end.

(** Each character of [s] followed by [new]: what [s.replace("", new)]
    yields after its leading [new]. *)
Definition interleave (new s : string) : string :=
  fold_right (fun point rest => point +:+ new +:+ rest) "" (code_points s).

(** Left-to-right scan of [str.replace] for a non-empty [old]: [skip]
    counts the characters of the occurrence just replaced that are still
    to be dropped, so that occurrences never overlap. *)
Fixpoint replace_scan (old new : string) (skip : nat) (s : string) : string :=
  match s with
  | "" => ""
  | String c s' =>
      match skip with
      | S k => replace_scan old new k s'
      | O =>
          if String.prefix old s
          then new +:+ replace_scan old new (String.length old - 1) s'
          else String c (replace_scan old new 0 s')
      end
  end.

(** [s.replace(old, new)]: every non-overlapping occurrence of [old],
    found from the left, becomes [new]. *)
Definition replace (old new s : string) : string :=
  match old with
  | "" => new +:+ interleave new s
  | String _ _ => replace_scan old new 0 s
  end.

(** [sep.join(items)]. *)
Fixpoint join (sep : string) (items : list string) : string :=
  match items with
  | [] => ""
  | [x] => x
  | x :: rest => x +:+ sep +:+ join sep rest
  end.

(** [str(n)] for an [int]: the decimal numeral, with [-] when negative. *)
Definition format_int (n : Z) : string := NilZero.string_of_int (Z.to_int n).

(** Character-wise image of a string. *)
Fixpoint map (f : ascii -> ascii) (s : string) : string :=
  match s with
  | "" => ""
  | String c s' => String (f c) (map f s')
  end.

End PyStr.

(** ** The query URL *)

(** [search_term.replace(" ", "+")]. *)
Definition search_term_formatted (search_term : string) : string :=
  PyStr.replace " " "+" search_term.

(** [fields = ["title", "author_name"]]. *)
Definition fields : list string := ["title"; "author_name"].

(** [",".join(fields)]. *)
Definition fields_formatted : string := PyStr.join "," fields.

(** [limit = 1]. *)
Definition limit : Z := 1.

(** The f-string
    [https://openlibrary.org/search.json?title={..}&fields={..}&limit={..}]. *)
Definition URL (search_term : string) : string :=
  "https://openlibrary.org/search.json?title=" +:+ search_term_formatted search_term
  +:+ "&fields=" +:+ fields_formatted
  +:+ "&limit=" +:+ PyStr.format_int limit.

(** What the specification says of the query term: each space becomes a
    plus sign and every other character is kept. *)
Definition space_to_plus (c : ascii) : ascii :=
  if Ascii.eqb c " " then "+"%char else c.

Definition spec_query_term (title : string) : string :=
  PyStr.map space_to_plus title.

(** ** Parsed JSON values

    What [Response.json()] returns: [None], [bool], [int], [float], [str],
    [list] and [dict] values. *)

Inductive json : Type :=
  | JNull
  | JBool (b : bool)
  | JInt (n : Z)
  | JFloat (x : spec_float)
  | JStr (s : string)
  | JArr (items : list json)
  | JObj (members : gmap string json).

(** ** Exceptions *)

(** The object between the brackets of a subscript. *)
Inductive subscript : Type :=
  | SubStr (key : string)
  | SubInt (index : Z).

Inductive exn : Type :=
  | KeyError (key : subscript)
  | IndexError
  | TypeError
  | JSONDecodeError
  | ValueError
  | RecursionError
  | RequestException
  | EOFError
  | OtherError (name : string).

(** [KeyError] and [IndexError] are the two subclasses of [LookupError]. *)
Definition is_lookup_error (e : exn) : bool :=
  match e with
  | KeyError _ | IndexError => true
  | _ => false
  end.

(** The result of evaluating an expression: a value, or an exception that
    nothing in the module catches. *)
Inductive outcome (A : Type) : Type :=
  | Return (a : A)
  | Raise (e : exn).
Arguments Return {A} a.
Arguments Raise {A} e.

#[global] Instance outcome_ret : MRet outcome := fun A a => Return a.
#[global] Instance outcome_bind : MBind outcome := fun A B k m =>
  match m with
  | Return a => k a
  | Raise e => Raise e
  end.

(** ** Subscripts *)

(** Position denoted by the integer subscript [i] in a sequence of [len]
    items: negative subscripts count from the end. *)
Definition position (len : nat) (i : Z) : option nat :=
  let j := (if i <? 0 then i + Z.of_nat len else i)%Z in
  if ((0 <=? j) && (j <? Z.of_nat len))%Z then Some (Z.to_nat j) else None.

(** [v[k]]. *)
Definition getitem (v : json) (k : subscript) : outcome json :=
  match v, k with
  | JObj members, SubStr key =>
      match members !! key with
      | Some x => Return x
      | None => Raise (KeyError k)
      end
  | JObj _, SubInt _ => Raise (KeyError k)
  | JArr items, SubInt i =>
      match position (length items) i ≫= fun p => items !! p with
      | Some x => Return x
      | None => Raise IndexError
      end
  | JStr s, SubInt i =>
      match position (length (PyStr.code_points s)) i
            ≫= fun p => PyStr.code_points s !! p with
      | Some c => Return (JStr c)
      | None => Raise IndexError
      end
  | _, _ => Raise TypeError
  end.

(** ** The world: network, standard input, standard output *)

(** What [requests.get] hands back: the status line, the raw body
    ([response.content]), the URLs the library requested on the way after
    the first one, one per redirect it followed ([response.history]), and
    what [response.json()] does with the body: the value it returns or the
    exception it raises ([JSONDecodeError] for a body that is not JSON,
    [ValueError] for an integer with too many digits, [RecursionError] for
    a value nested too deep). *)
Record Response : Type := mkResponse {
  status_code : Z;
  content : string;
  history : list string;
  json_outcome : outcome json
}.

(** The value [response.json()] returns, if it returns. *)
Definition decoded (response : Response) : option json :=
  match json_outcome response with
  | Return v => Some v
  | Raise _ => None
  end.

(** The network's answer to a call of [requests.get]: a response of any
    status; or redirects to [hops] followed and then no usable response
    (too many redirects, a connection lost on the way); or no response at
    all. In the last two cases [requests.get] itself raises. *)
Inductive reply : Type :=
  | Responded (r : Response)
  | Abandoned (hops : list string)
  | Unreachable.

(** The observable effects: a call of [requests.get] with its argument, a
    text written to standard output, a line read from standard input. *)
Inductive event : Type :=
  | HttpGet (url : string)
  | StdoutWrite (text : string)
  | StdinRead (line : string).

(** [network n url] is the answer to a call [requests.get(url)] made after
    [n] earlier calls; [stdin] holds the lines not yet read, without their
    line terminator; [trace] lists the effects so far, oldest first. *)
Record world : Type := mkWorld {
  network : nat -> string -> reply;
  stdin : list string;
  trace : list event
}.

Fixpoint requests_in (t : list event) : nat :=
  match t with
  | [] => 0
  | HttpGet _ :: t' => S (requests_in t')
  | _ :: t' => requests_in t'
  end.

(** Everything written to standard output, in order. *)
Fixpoint stdout_text (t : list event) : string :=
  match t with
  | [] => ""
  | StdoutWrite text :: t' => text +:+ stdout_text t'
  | _ :: t' => stdout_text t'
  end.

(** The lines read from standard input, in order. *)
Fixpoint stdin_reads (t : list event) : list string :=
  match t with
  | [] => []
  | StdinRead line :: t' => line :: stdin_reads t'
  | _ :: t' => stdin_reads t'
  end.

Definition log (e : event) (w : world) : world :=
  {| network := network w; stdin := stdin w; trace := trace w ++ [e] |}.

(** The answer the network of [w] gives to the next call for [url]. *)
Definition next_reply (w : world) (url : string) : reply :=
  network w (requests_in (trace w)) url.

(** The URLs the library requested after the first one during a call. *)
Definition followed (answer : reply) : list string :=
  match answer with
  | Responded r => history r
  | Abandoned hops => hops
  | Unreachable => []
  end.

(** The GET requests sent over the network by the calls of the trace [t],
    the first of which is the [n]-th call of the world: for each call the
    URL it was given, then the URLs of the redirects followed. *)
Fixpoint wire_from (net : nat -> string -> reply) (n : nat) (t : list event)
  : list string :=
  match t with
  | [] => []
  | HttpGet url :: t' => (url :: followed (net n url)) ++ wire_from net (S n) t'
  | _ :: t' => wire_from net n t'
  end.

(** Every GET request sent over the network so far, in order. *)
Definition wire_gets (w : world) : list string :=
  wire_from (network w) 0 (trace w).

(** Computations that act on the world and may raise. *)
Definition M (A : Type) : Type := world -> outcome A * world.

#[global] Instance M_ret : MRet M := fun A a w => (Return a, w).
#[global] Instance M_bind : MBind M := fun A B k m w =>
  match m w with
  | (Return a, w') => k a w'
  | (Raise e, w') => (Raise e, w')
  end.

Definition lift {A : Type} (o : outcome A) : M A := fun w => (o, w).

(** [requests.get(url)], with the library's defaults: redirects are
    followed inside the call, whose answer is the last response. *)
Definition requests_get (url : string) : M Response := fun w =>
  match next_reply w url with
  | Responded r => (Return r, log (HttpGet url) w)
  | Abandoned _ | Unreachable => (Raise RequestException, log (HttpGet url) w)
  end.

(** [response.json()]. *)
Definition Response_json (response : Response) : M json :=
  lift (json_outcome response).

(** [print(s)] for a [str]. *)
Definition print (s : string) : M unit := fun w =>
  (Return tt, log (StdoutWrite (s +:+ PyStr.nl)) w).

(** [input(prompt)]: the prompt is written to standard output without a
    line feed, then one line is read and returned without its terminator;
    end of input raises. *)
Definition input (prompt : string) : M string := fun w =>
  let w1 := log (StdoutWrite prompt) w in
  match stdin w1 with
  | [] => (Raise EOFError, w1)
  | line :: rest =>
      (Return line,
       {| network := network w1; stdin := rest; trace := trace w1 ++ [StdinRead line] |})
  end.

(** ** The class [Search] *)

(** The class has no [__init__] and no attribute. *)
Inductive Search : Type := mkSearch.

Section Methods.

(** [str()] of a [float], a [list] or a [dict], which the module never
    computes itself: any rendering will do. *)
Variable repr_other : json -> string.

(** A replacement field [{v}] of an f-string, without conversion or format
    specification. *)
Definition format_value (v : json) : string :=
  match v with
  | JStr s => s
  | JNull => "None"
  | JBool true => "True"
  | JBool false => "False"
  | JInt n => PyStr.format_int n
  | _ => repr_other v
  end.

Definition get_search_results (self : Search) : M string :=
  let search_term := "the lord of the rings" in
  response ← requests_get (URL search_term);
  mret (content response).

Definition get_search_results_json (self : Search) : M json :=
  let search_term := "the lord of the rings" in
  _ ← print (URL search_term);
  response ← requests_get (URL search_term);
  Response_json response.

(** The f-string of [get_user_search_results], its two replacement fields
    evaluated from left to right. *)
Definition response_formatted (response : json) : outcome string :=
  title ← (docs ← getitem response (SubStr "docs");
           doc ← getitem docs (SubInt 0);
           getitem doc (SubStr "title"));
  author ← (docs ← getitem response (SubStr "docs");
            doc ← getitem docs (SubInt 0);
            names ← getitem doc (SubStr "author_name");
            getitem names (SubInt 0));
  mret ("Title: " +:+ format_value title +:+ PyStr.nl
        +:+ "Author: " +:+ format_value author).

Definition get_user_search_results (self : Search) (search_term : string) : M string :=
  response ← (r ← requests_get (URL search_term); Response_json r);
  lift (response_formatted response).

(** ** The module-level script *)

Definition script : M unit :=
  search_term ← input "Enter a book title: ";
  result ← get_user_search_results mkSearch search_term;
  _ ← print ("Search Result:" +:+ PyStr.nl);
  print result.

End Methods.

(** A status code of the 2xx class. *)
Definition is_success (status : Z) : bool :=
  ((200 <=? status) && (status <? 300))%Z.

(** ** Sample data *)

(** A JSON string literal without escapes: the text between double quotes. *)
Definition quoted (s : string) : string := String "034" s +:+ String "034" "".

(** A response of status 200 with the given body and its decoding. *)
Definition ok_response (body : string) (members : gmap string json) : Response :=
  {| status_code := 200;
     content := body;
     history := [];
     json_outcome := Return (JObj members) |}.

(** The body [{"docs": [{"title": "The Hobbit",
    "author_name": ["J.R.R. Tolkien"]}]}]. *)
Definition hobbit_doc : gmap string json :=
  <["title" := JStr "The Hobbit"]> {["author_name" := JArr [JStr "J.R.R. Tolkien"]]}.

Definition hobbit_members : gmap string json := {["docs" := JArr [JObj hobbit_doc]]}.

Definition hobbit_content : string :=
  "{" +:+ quoted "docs" +:+ ": [{" +:+ quoted "title" +:+ ": " +:+ quoted "The Hobbit"
  +:+ ", " +:+ quoted "author_name" +:+ ": [" +:+ quoted "J.R.R. Tolkien" +:+ "]}]}".

(** A response with the given status and the Hobbit body. *)
Definition hobbit_response (status : Z) : Response :=
  {| status_code := status;
     content := hobbit_content;
     history := [];
     json_outcome := Return (JObj hobbit_members) |}.

(** What the method makes of the Hobbit body. *)
Definition hobbit_formatted : string :=
  "Title: The Hobbit" +:+ PyStr.nl +:+ "Author: J.R.R. Tolkien".

(** The body [{"docs": []}]. *)
Definition no_docs_members : gmap string json := {["docs" := JArr []]}.

Definition no_docs_response : Response :=
  ok_response ("{" +:+ quoted "docs" +:+ ": []}") no_docs_members.

(** The body [{"docs": [{"title": "Beowulf", "author_name": []}]}]: a first
    document with a title and no author. *)
Definition anonymous_doc : gmap string json :=
  <["title" := JStr "Beowulf"]> {["author_name" := JArr []]}.

Definition anonymous_members : gmap string json :=
  {["docs" := JArr [JObj anonymous_doc]]}.

Definition anonymous_response : Response :=
  ok_response ("{" +:+ quoted "docs" +:+ ": [{" +:+ quoted "title" +:+ ": "
               +:+ quoted "Beowulf" +:+ ", " +:+ quoted "author_name" +:+ ": []}]}")
              anonymous_members.

(** The body [{"docs": [{"author_name": ["J.R.R. Tolkien"]}]}]: a first
    document with an author and no title. *)
Definition untitled_doc : gmap string json :=
  {["author_name" := JArr [JStr "J.R.R. Tolkien"]]}.

Definition untitled_members : gmap string json :=
  {["docs" := JArr [JObj untitled_doc]]}.

Definition untitled_response : Response :=
  ok_response ("{" +:+ quoted "docs" +:+ ": [{" +:+ quoted "author_name" +:+ ": ["
               +:+ quoted "J.R.R. Tolkien" +:+ "]}]}")
              untitled_members.

(** A world whose network always answers [r], with [lines] waiting on
    standard input and nothing done yet. *)
Definition serving (r : Response) (lines : list string) : world :=
  {| network := fun _ _ => Responded r; stdin := lines; trace := [] |}.

(** A rendering of non-string values for the samples, none of which has a
    non-string title or author. *)
Definition repr_unused (v : json) : string := "".

(** ** Further notions and sample data *)

(** [c in s] for a character [c]. *)
Fixpoint contains (c : ascii) (s : string) : bool :=
  match s with
  | "" => false
  | String c' s' => Ascii.eqb c' c || contains c s'
  end.

(** The exceptions the subscripts of the f-string can raise. *)
Definition subscript_error (e : exn) : bool :=
  match e with
  | TypeError | IndexError => true
  | KeyError (SubStr key) =>
      String.eqb key "docs" || String.eqb key "title" || String.eqb key "author_name"
  | KeyError (SubInt i) => (i =? 0)%Z
  | _ => false
  end.

(** A world without network: every call of [requests.get] fails. *)
Definition offline (lines : list string) : world :=
  {| network := fun _ _ => Unreachable; stdin := lines; trace := [] |}.

(** A world whose network answers [first] to the first call and [later]
    to all others. *)
Definition changing (first later : Response) : world :=
  {| network := fun n _ => match n with O => Responded first | S _ => Responded later end;
     stdin := [];
     trace := [] |}.

(** An error page: status 503 and a body that is not JSON. *)
Definition error_page : Response :=
  {| status_code := 503;
     content := "<html>Service Unavailable</html>";
     history := [];
     json_outcome := Raise JSONDecodeError |}.

(** The body [{"error": "unavailable"}]: no [docs] at all. *)
Definition no_docs_key_members : gmap string json := {["error" := JStr "unavailable"]}.

Definition no_docs_key_response : Response :=
  ok_response ("{" +:+ quoted "error" +:+ ": " +:+ quoted "unavailable" +:+ "}")
              no_docs_key_members.

(** The body [["The Hobbit"]]: a list at top level. *)
Definition top_level_list_response : Response :=
  {| status_code := 200;
     content := "[" +:+ quoted "The Hobbit" +:+ "]";
     history := [];
     json_outcome := Return (JArr [JStr "The Hobbit"]) |}.

(** The body [{"docs": {}}]: [docs] is a [dict]. *)
Definition docs_dict_members : gmap string json := {["docs" := JObj ∅]}.

Definition docs_dict_response : Response :=
  ok_response ("{" +:+ quoted "docs" +:+ ": {}}") docs_dict_members.

(** The body [{"docs": ["The Hobbit"]}]: the first document is a string. *)
Definition bare_title_members : gmap string json := {["docs" := JArr [JStr "The Hobbit"]]}.

Definition bare_title_response : Response :=
  ok_response ("{" +:+ quoted "docs" +:+ ": [" +:+ quoted "The Hobbit" +:+ "]}")
              bare_title_members.

(** The body [{"docs": [{"title": "Beowulf"}]}]: no [author_name] key. *)
Definition authorless_doc : gmap string json := {["title" := JStr "Beowulf"]}.

Definition authorless_members : gmap string json := {["docs" := JArr [JObj authorless_doc]]}.

Definition authorless_response : Response :=
  ok_response ("{" +:+ quoted "docs" +:+ ": [{" +:+ quoted "title" +:+ ": "
               +:+ quoted "Beowulf" +:+ "}]}")
              authorless_members.

(** The body [{"docs": [{"title": null, "author_name": "Ōe Kenzaburō"}]}]:
    a title that is not a string and an author that is not a list; the
    first character of the author takes two bytes in UTF-8. *)
Definition loose_doc : gmap string json :=
  <["title" := JNull]> {["author_name" := JStr "Ōe Kenzaburō"]}.

Definition loose_members : gmap string json := {["docs" := JArr [JObj loose_doc]]}.

Definition loose_response : Response :=
  ok_response ("{" +:+ quoted "docs" +:+ ": [{" +:+ quoted "title" +:+ ": null, "
               +:+ quoted "author_name" +:+ ": " +:+ quoted "Ōe Kenzaburō" +:+ "}]}")
              loose_members.

(** The Hobbit response reached through one redirect: the library first
    requested the URL it was given, was sent to [redirect_target] and
    requested that. *)
Definition redirect_target : string :=
  "https://www.openlibrary.org/search.json?title=the+hobbit&fields=title,author_name&limit=1".

Definition redirected_response : Response :=
  {| status_code := 200;
     content := hobbit_content;
     history := [redirect_target];
     json_outcome := Return (JObj hobbit_members) |}.

(** [n] times the digit 9. *)
Fixpoint nines (n : nat) : string :=
  match n with
  | O => ""
  | S k => String "9" (nines k)
  end.

(** The body [{"docs": 99...9}] with an integer of 5000 digits, which
    [response.json()] refuses with [ValueError]. *)
Definition overlong_response : Response :=
  {| status_code := 200;
     content := "{" +:+ quoted "docs" +:+ ": " +:+ nines 5000 +:+ "}";
     history := [];
     json_outcome := Raise ValueError |}.

(** The body [{"docs": [{"title": 1937, "author_name": ["J.R.R. Tolkien"]}]}]:
    a number where the title should be. *)
Definition numbered_doc : gmap string json :=
  <["title" := JInt 1937]> {["author_name" := JArr [JStr "J.R.R. Tolkien"]]}.

Definition numbered_members : gmap string json := {["docs" := JArr [JObj numbered_doc]]}.

Definition numbered_response : Response :=
  ok_response ("{" +:+ quoted "docs" +:+ ": [{" +:+ quoted "title" +:+ ": 1937, "
               +:+ quoted "author_name" +:+ ": [" +:+ quoted "J.R.R. Tolkien" +:+ "]}]}")
              numbered_members.




(** * Properties *)

(** ** Strings and the URL *)

Lemma replace_scan_space (s : string) :
  PyStr.replace_scan " " "+" 0 s = PyStr.map space_to_plus s.
Proof.
  induction s as [|c s IH]; [reflexivity|].
  cbn [PyStr.replace_scan PyStr.map String.prefix String.length].
  unfold space_to_plus at 1.
  destruct (ascii_dec " " c) as [<-|Hne].
  - replace (String.prefix "" s) with true by now destruct s.
    cbn. now rewrite IH.
  - destruct (Ascii.eqb_spec c " ") as [->|_]; [now destruct Hne|].
    now rewrite IH.
Qed.

Lemma map_length (f : ascii -> ascii) (s : string) :
  String.length (PyStr.map f s) = String.length s.
Proof. induction s as [|c s IH]; cbn; [reflexivity | now rewrite IH]. Qed.

Lemma map_get (f : ascii -> ascii) (s : string) (i : nat) :
  String.get i (PyStr.map f s) = option_map f (String.get i s).
Proof.
  revert i; induction s as [|c s IH]; intros i; [reflexivity|].
  destruct i as [|i]; cbn; [reflexivity | apply IH].
Qed.

(** C1. The query term is the search term with every space replaced by a
    plus sign and every other character kept, position by position; so
    [the hobbit] becomes [the+hobbit] and reserved characters are left as
    they are. *)
Theorem query_term_spaces_to_plus (search_term : string) :
  search_term_formatted search_term = spec_query_term search_term
  /\ String.length (search_term_formatted search_term) = String.length search_term
  /\ (forall i : nat,
        String.get i (search_term_formatted search_term)
        = option_map space_to_plus (String.get i search_term))
  /\ search_term_formatted "the hobbit" = "the+hobbit"
  /\ search_term_formatted "a&b=c?d#e%f/g" = "a&b=c?d#e%f/g".
Proof.
  assert (E : search_term_formatted search_term = spec_query_term search_term)
    by apply replace_scan_space.
  rewrite E; unfold spec_query_term.
  repeat split; auto using map_length, map_get.
Qed.

(** ** Subscripts *)

Lemma getitem_first (x : json) (xs : list json) :
  getitem (JArr (x :: xs)) (SubInt 0) = Return x.
Proof. reflexivity. Qed.

Lemma getitem_first_empty : getitem (JArr []) (SubInt 0) = Raise IndexError.
Proof. reflexivity. Qed.

Lemma getitem_member (members : gmap string json) (key : string) (v : json) :
  members !! key = Some v -> getitem (JObj members) (SubStr key) = Return v.
Proof. intros H; cbn; now rewrite H. Qed.

Lemma getitem_no_member (members : gmap string json) (key : string) :
  members !! key = None ->
  getitem (JObj members) (SubStr key) = Raise (KeyError (SubStr key)).
Proof. intros H; cbn; now rewrite H. Qed.

(** ** Requests on the wire *)

Lemma wire_from_app (net : nat -> string -> reply) (t t' : list event) (n : nat) :
  wire_from net n (t ++ t')
  = (wire_from net n t ++ wire_from net (n + requests_in t) t')%list.
Proof.
  revert n; induction t as [|[url|text|line] t IH]; intros n; cbn [app wire_from requests_in].
  - now rewrite Nat.add_0_r.
  - rewrite IH, Nat.add_succ_r. cbn [Nat.add]. now rewrite <- !app_assoc.
  - apply IH.
  - apply IH.
Qed.

(** One more call sends its URL and then the URLs of the redirects the
    library follows for it. *)
Lemma wire_gets_call (url : string) (w : world) :
  wire_gets (log (HttpGet url) w)
  = (wire_gets w ++ url :: followed (next_reply w url))%list.
Proof.
  unfold wire_gets, log, next_reply; cbn [network trace].
  rewrite wire_from_app. cbn [wire_from Nat.add]. now rewrite app_nil_r.
Qed.

(** ** One run of the search method *)

Section Runs.

Variable repr_other : json -> string.

(** The method logs one GET of the URL and returns what the f-string makes
    of the decoded body. *)
Lemma get_user_search_results_run (self : Search) (search_term : string) (w : world) :
  get_user_search_results repr_other self search_term w =
  (match next_reply w (URL search_term) with
   | Responded r => json_outcome r ≫= response_formatted repr_other
   | Abandoned _ | Unreachable => Raise RequestException
   end,
   log (HttpGet (URL search_term)) w).
Proof.
  unfold get_user_search_results, mbind at 1 2, M_bind, requests_get, Response_json, lift.
  destruct (next_reply w (URL search_term)) as [r| |]; [|reflexivity..].
  destruct (json_outcome r) as [v|e]; [|reflexivity].
  cbn [mbind outcome_bind]. now destruct (response_formatted repr_other v).
Qed.

Lemma decoded_Some (r : Response) (v : json) :
  decoded r = Some v <-> json_outcome r = Return v.
Proof.
  unfold decoded. destruct (json_outcome r) as [x|e]; split; intros [=]; now subst.
Qed.

Lemma get_user_search_results_decoded
    (self : Search) (search_term : string) (w : world) (r : Response) (v : json) :
  next_reply w (URL search_term) = Responded r ->
  decoded r = Some v ->
  fst (get_user_search_results repr_other self search_term w)
  = response_formatted repr_other v.
Proof.
  intros Hr Hv%decoded_Some. now rewrite get_user_search_results_run, Hr, Hv.
Qed.

(** The f-string on a response whose first document is a [dict]. *)
Lemma response_formatted_first_doc (members doc : gmap string json) (docs : list json) :
  members !! "docs" = Some (JArr (JObj doc :: docs)) ->
  response_formatted repr_other (JObj members) =
  title ← getitem (JObj doc) (SubStr "title");
  author ← (names ← getitem (JObj doc) (SubStr "author_name");
            getitem names (SubInt 0));
  mret ("Title: " +:+ format_value repr_other title +:+ PyStr.nl
        +:+ "Author: " +:+ format_value repr_other author).
Proof.
  intros Hdocs. unfold response_formatted.
  rewrite (getitem_member _ _ _ Hdocs). cbn [mbind outcome_bind].
  now rewrite getitem_first.
Qed.

(** C2. The URL is the fixed endpoint followed by [title], [fields] and
    [limit] in that order, the last two with the constant values
    [title,author_name] and [1]; this is the URL the method requests. *)
Theorem url_shape (self : Search) (search_term : string) (w : world) :
  URL search_term
  = "https://openlibrary.org/search.json"
    +:+ "?title=" +:+ search_term_formatted search_term
    +:+ "&fields=title,author_name"
    +:+ "&limit=1"
  /\ fields_formatted = "title,author_name"
  /\ PyStr.format_int limit = "1"
  /\ trace (snd (get_user_search_results repr_other self search_term w))
     = (trace w ++ [HttpGet (URL search_term)])%list.
Proof.
  repeat split; try reflexivity.
  now rewrite get_user_search_results_run.
Qed.

(** C3. When the decoded response has a non-empty [docs] list whose first
    document has a string [title] and a non-empty [author_name] list, the
    method returns [Title: ] and the title, a line feed, [Author: ] and the
    first author. *)
Theorem formatted_title_and_author
    (self : Search) (search_term : string) (w : world) (r : Response)
    (members doc : gmap string json) (docs names : list json)
    (title : string) (author : json) :
  next_reply w (URL search_term) = Responded r ->
  decoded r = Some (JObj members) ->
  members !! "docs" = Some (JArr (JObj doc :: docs)) ->
  doc !! "title" = Some (JStr title) ->
  doc !! "author_name" = Some (JArr (author :: names)) ->
  fst (get_user_search_results repr_other self search_term w)
  = Return ("Title: " +:+ title +:+ PyStr.nl
            +:+ "Author: " +:+ format_value repr_other author).
Proof.
  intros Hr Hv Hdocs Htitle Hnames.
  rewrite (get_user_search_results_decoded _ _ _ _ _ Hr Hv).
  rewrite (response_formatted_first_doc _ _ _ Hdocs).
  rewrite (getitem_member _ _ _ Htitle), (getitem_member _ _ _ Hnames).
  reflexivity.
Qed.

(** An author that is a string is printed as it is. *)
Lemma format_value_str (s : string) : format_value repr_other (JStr s) = s.
Proof. reflexivity. Qed.

(** C4. When the decoded response has an empty [docs] list, the method
    raises [IndexError] and returns nothing. *)
Theorem empty_docs_raises
    (self : Search) (search_term : string) (w : world) (r : Response)
    (members : gmap string json) :
  next_reply w (URL search_term) = Responded r ->
  decoded r = Some (JObj members) ->
  members !! "docs" = Some (JArr []) ->
  fst (get_user_search_results repr_other self search_term w) = Raise IndexError.
Proof.
  intros Hr Hv Hdocs.
  rewrite (get_user_search_results_decoded _ _ _ _ _ Hr Hv).
  unfold response_formatted. now rewrite (getitem_member _ _ _ Hdocs).
Qed.

(** C5. When the first document's [author_name] is an empty list, the
    method raises a lookup error and returns nothing: [IndexError] when the
    document has a title, the [KeyError] of the title otherwise. *)
Theorem empty_author_name_raises
    (self : Search) (search_term : string) (w : world) (r : Response)
    (members doc : gmap string json) (docs : list json) :
  next_reply w (URL search_term) = Responded r ->
  decoded r = Some (JObj members) ->
  members !! "docs" = Some (JArr (JObj doc :: docs)) ->
  doc !! "author_name" = Some (JArr []) ->
  exists e : exn,
    fst (get_user_search_results repr_other self search_term w) = Raise e
    /\ is_lookup_error e = true
    /\ e = match doc !! "title" with
           | Some _ => IndexError
           | None => KeyError (SubStr "title")
           end.
Proof.
  intros Hr Hv Hdocs Hnames.
  rewrite (get_user_search_results_decoded _ _ _ _ _ Hr Hv).
  rewrite (response_formatted_first_doc _ _ _ Hdocs).
  rewrite (getitem_member _ _ _ Hnames).
  destruct (doc !! "title") as [t|] eqn:Htitle.
  - rewrite (getitem_member _ _ _ Htitle). now exists IndexError.
  - rewrite (getitem_no_member _ _ Htitle). now eexists.
Qed.

(** C6, as the code has it. A call of the method appends exactly one event
    to the trace, its one call of [requests.get] for the URL: nothing is
    written to standard output and nothing is read from standard input. On
    the wire the call sends the GET of the URL and then one GET per
    redirect the library follows for it, and no other. *)
Theorem one_request_no_other_effect (self : Search) (search_term : string) (w : world) :
  let w' := snd (get_user_search_results repr_other self search_term w) in
  trace w' = (trace w ++ [HttpGet (URL search_term)])%list
  /\ requests_in (trace w') = S (requests_in (trace w))
  /\ stdout_text (trace w') = stdout_text (trace w)
  /\ stdin_reads (trace w') = stdin_reads (trace w)
  /\ stdin w' = stdin w
  /\ network w' = network w
  /\ wire_gets w'
     = (wire_gets w
        ++ URL search_term :: followed (next_reply w (URL search_term)))%list.
Proof.
  rewrite get_user_search_results_run; cbn [snd].
  split; [reflexivity|]. repeat split; try apply wire_gets_call;
    cbn; induction (trace w) as [|[] t IH]; cbn; congruence.
Qed.

(** C10. When the first document has no [title], the method raises the
    [KeyError] of the title, whatever [author_name] holds. *)
Theorem missing_title_raises
    (self : Search) (search_term : string) (w : world) (r : Response)
    (members doc : gmap string json) (docs : list json) :
  next_reply w (URL search_term) = Responded r ->
  decoded r = Some (JObj members) ->
  members !! "docs" = Some (JArr (JObj doc :: docs)) ->
  doc !! "title" = None ->
  fst (get_user_search_results repr_other self search_term w)
  = Raise (KeyError (SubStr "title")).
Proof.
  intros Hr Hv Hdocs Htitle.
  rewrite (get_user_search_results_decoded _ _ _ _ _ Hr Hv).
  rewrite (response_formatted_first_doc _ _ _ Hdocs).
  now rewrite (getitem_no_member _ _ Htitle).
Qed.

(** X17. The sibling [get_search_results_json] does print the URL before its
    call of [requests.get]. *)
Lemma get_search_results_json_prints_url (self : Search) (w : world) :
  trace (snd (get_search_results_json self w))
  = (trace w ++ [StdoutWrite (URL "the lord of the rings" +:+ PyStr.nl);
                 HttpGet (URL "the lord of the rings")])%list.
Proof.
  unfold get_search_results_json, mbind, M_bind, print, requests_get, Response_json, lift.
  destruct (next_reply _ _) as [r| |]; [destruct (json_outcome r)| |];
    cbn [snd log trace]; now rewrite <- app_assoc.
Qed.

End Runs.

(** ** The status code, earlier calls and the instance *)

Section Independence.

Variable repr_other : json -> string.

(** C9. Two calls with the same search term that receive the same reply
    return or raise the same, whatever the instances and whatever happened
    before in either world. *)
Theorem result_independent_of_history
    (self1 self2 : Search) (search_term : string) (w1 w2 : world) :
  next_reply w1 (URL search_term) = next_reply w2 (URL search_term) ->
  fst (get_user_search_results repr_other self1 search_term w1)
  = fst (get_user_search_results repr_other self2 search_term w2).
Proof. intros H. now rewrite !get_user_search_results_run, H. Qed.

(** A [Search] carries nothing: any two instances are equal. *)
Lemma Search_unique (self1 self2 : Search) : self1 = self2.
Proof. now destruct self1, self2. Qed.

End Independence.

(** ** The script *)

Lemma requests_in_app (t t' : list event) :
  requests_in (t ++ t') = requests_in t + requests_in t'.
Proof. induction t as [|[] t IH]; cbn; [reflexivity | now rewrite IH | exact IH | exact IH]. Qed.


Section Script.

Variable repr_other : json -> string.


(** X20. When the search raises, only the prompt has been written. *)
Lemma script_failure_prints_nothing
    (w : world) (line : string) (rest : list string) (e : exn) :
  stdin w = line :: rest ->
  fst (get_user_search_results repr_other mkSearch line w) = Raise e ->
  script repr_other w
  = (Raise e,
     {| network := network w; stdin := rest;
        trace := trace w ++ [StdoutWrite "Enter a book title: "; StdinRead line;
                             HttpGet (URL line)] |}).
Proof.
  intros Hin. rewrite get_user_search_results_run. cbn [fst]. intros He.
  unfold script, mbind, M_bind, input. cbn [log stdin network trace]. rewrite Hin.
  rewrite get_user_search_results_run. unfold next_reply in *.
  cbn [log stdin network trace].
  rewrite !requests_in_app, !Nat.add_0_r, He.
  unfold log; cbn [stdin network trace]. now rewrite <- !app_assoc.
Qed.

End Script.

(** ** The properties on the sample data *)

(** The Hobbit response gives [Title: The Hobbit], a line feed and
    [Author: J.R.R. Tolkien]. *)
Lemma formatted_title_and_author_hobbit :
  next_reply (serving (hobbit_response 200) []) (URL "the hobbit")
  = Responded (hobbit_response 200)
  /\ decoded (hobbit_response 200) = Some (JObj hobbit_members)
  /\ hobbit_members !! "docs" = Some (JArr [JObj hobbit_doc])
  /\ hobbit_doc !! "title" = Some (JStr "The Hobbit")
  /\ hobbit_doc !! "author_name" = Some (JArr [JStr "J.R.R. Tolkien"])
  /\ fst (get_user_search_results repr_unused mkSearch "the hobbit"
            (serving (hobbit_response 200) []))
     = Return hobbit_formatted.
Proof.
  do 5 (split; [reflexivity|]).
  apply (formatted_title_and_author repr_unused mkSearch "the hobbit"
           (serving (hobbit_response 200) []) (hobbit_response 200)
           hobbit_members hobbit_doc [] [] "The Hobbit" (JStr "J.R.R. Tolkien"));
    reflexivity.
Defined.

(** The response [{"docs": []}] raises [IndexError]. *)
Lemma empty_docs_raises_sample :
  next_reply (serving no_docs_response []) (URL "no such book")
  = Responded no_docs_response
  /\ decoded no_docs_response = Some (JObj no_docs_members)
  /\ no_docs_members !! "docs" = Some (JArr [])
  /\ fst (get_user_search_results repr_unused mkSearch "no such book"
            (serving no_docs_response []))
     = Raise IndexError.
Proof.
  do 3 (split; [reflexivity|]).
  apply (empty_docs_raises repr_unused mkSearch "no such book"
           (serving no_docs_response []) no_docs_response
           no_docs_members);
    reflexivity.
Defined.

(** A titled first document without authors raises a lookup error. *)
Lemma empty_author_name_raises_sample :
  next_reply (serving anonymous_response []) (URL "beowulf")
  = Responded anonymous_response
  /\ decoded anonymous_response = Some (JObj anonymous_members)
  /\ anonymous_members !! "docs" = Some (JArr [JObj anonymous_doc])
  /\ anonymous_doc !! "author_name" = Some (JArr [])
  /\ exists e : exn,
       fst (get_user_search_results repr_unused mkSearch "beowulf"
              (serving anonymous_response []))
       = Raise e
       /\ is_lookup_error e = true
       /\ e = match anonymous_doc !! "title" with
              | Some _ => IndexError
              | None => KeyError (SubStr "title")
              end.
Proof.
  do 4 (split; [reflexivity|]).
  apply (empty_author_name_raises repr_unused mkSearch "beowulf"
           (serving anonymous_response []) anonymous_response
           anonymous_members anonymous_doc []);
    reflexivity.
Defined.

(** A first document without title raises the [KeyError] of the title. *)
Lemma missing_title_raises_sample :
  next_reply (serving untitled_response []) (URL "the hobbit")
  = Responded untitled_response
  /\ decoded untitled_response = Some (JObj untitled_members)
  /\ untitled_members !! "docs" = Some (JArr [JObj untitled_doc])
  /\ untitled_doc !! "title" = None
  /\ fst (get_user_search_results repr_unused mkSearch "the hobbit"
            (serving untitled_response []))
     = Raise (KeyError (SubStr "title")).
Proof.
  do 4 (split; [reflexivity|]).
  apply (missing_title_raises repr_unused mkSearch "the hobbit"
           (serving untitled_response []) untitled_response
           untitled_members untitled_doc []);
    reflexivity.
Defined.

(** C7, as the claim has it, fails: a response of status 404 with the
    Hobbit body is formatted like any other, nothing is raised. *)
Lemma non_success_status_still_formatted :
  is_success (status_code (hobbit_response 404)) = false
  /\ fst (get_user_search_results repr_unused mkSearch "the hobbit"
            (serving (hobbit_response 404) []))
     = Return hobbit_formatted
  /\ ~ (exists e : exn,
          fst (get_user_search_results repr_unused mkSearch "the hobbit"
                 (serving (hobbit_response 404) []))
          = Raise e).
Proof.
  split; [reflexivity|]. split; [reflexivity|].
  intros [e He]. discriminate He.
Qed.

(** A fresh world and one in which another method has already printed and
    sent a request give the same result. *)
Lemma result_independent_of_history_sample :
  next_reply (serving (hobbit_response 200) []) (URL "the hobbit")
  = next_reply
      (snd (get_search_results_json mkSearch (serving (hobbit_response 200) ["unread"])))
      (URL "the hobbit")
  /\ fst (get_user_search_results repr_unused mkSearch "the hobbit"
            (serving (hobbit_response 200) []))
     = fst (get_user_search_results repr_unused mkSearch "the hobbit"
              (snd (get_search_results_json mkSearch
                      (serving (hobbit_response 200) ["unread"])))).
Proof.
  split; [reflexivity|].
  apply (result_independent_of_history repr_unused mkSearch mkSearch "the hobbit"
           (serving (hobbit_response 200) [])
           (snd (get_search_results_json mkSearch
                   (serving (hobbit_response 200) ["unread"]))));
    reflexivity.
Defined.



(** * Further properties *)

(** ** The query term and the URL *)

Lemma contains_append (c : ascii) (a b : string) :
  contains c (a +:+ b) = contains c a || contains c b.
Proof.
  induction a as [|x a IH]; [reflexivity|].
  change (Ascii.eqb x c || contains c (a +:+ b)
          = Ascii.eqb x c || contains c a || contains c b).
  now rewrite IH, orb_assoc.
Qed.

Lemma space_to_plus_idem (c : ascii) : space_to_plus (space_to_plus c) = space_to_plus c.
Proof.
  unfold space_to_plus. destruct (Ascii.eqb_spec c " ") as [->|Hc]; [reflexivity|].
  now destruct (Ascii.eqb_spec c " ").
Qed.

Lemma map_space_free (s : string) :
  contains " " (PyStr.map space_to_plus s) = false.
Proof.
  induction s as [|c s IH]; [reflexivity|].
  cbn [PyStr.map contains]. rewrite IH, orb_false_r.
  unfold space_to_plus. now destruct (Ascii.eqb_spec c " ") as [->|Hc]; [|apply Ascii.eqb_neq].
Qed.

Lemma map_fixes_space_free (s : string) :
  contains " " s = false -> PyStr.map space_to_plus s = s.
Proof.
  induction s as [|c s IH]; [reflexivity|].
  cbn [PyStr.map contains]. intros [Hc Hs]%orb_false_elim.
  rewrite (IH Hs). unfold space_to_plus. now rewrite Hc.
Qed.

(** X1. The URL never holds a space, whatever the search term, and formatting
    a term twice is formatting it once: a term and the same term with plus
    signs for its spaces give the same URL. *)
Theorem url_space_free (search_term : string) :
  contains " " (search_term_formatted search_term) = false
  /\ contains " " (URL search_term) = false
  /\ search_term_formatted (search_term_formatted search_term)
     = search_term_formatted search_term
  /\ URL (search_term_formatted search_term) = URL search_term.
Proof.
  assert (E : forall s, search_term_formatted s = PyStr.map space_to_plus s)
    by apply replace_scan_space.
  assert (I : search_term_formatted (search_term_formatted search_term)
              = search_term_formatted search_term).
  { rewrite !E. induction search_term as [|c s IH]; [reflexivity|].
    cbn [PyStr.map]. now rewrite space_to_plus_idem, IH. }
  split; [rewrite E; apply map_space_free|].
  split; [|split; [exact I | unfold URL; now rewrite I]].
  unfold URL. rewrite !contains_append, E, map_space_free. reflexivity.
Qed.

(** X2. A search term without spaces goes into the URL as it is: nothing is
    percent-encoded, so [&], [=] or [#] in the term reach the query string
    unchanged. *)
Theorem space_free_term_verbatim (search_term : string) :
  contains " " search_term = false ->
  search_term_formatted search_term = search_term
  /\ URL search_term
     = "https://openlibrary.org/search.json?title=" +:+ search_term
       +:+ "&fields=title,author_name&limit=1".
Proof.
  intros H.
  assert (E : search_term_formatted search_term = search_term).
  { unfold search_term_formatted, PyStr.replace.
    rewrite replace_scan_space. now apply map_fixes_space_free. }
  split; [exact E|]. unfold URL. now rewrite E.
Qed.

Lemma space_free_term_verbatim_sample :
  contains " " "hobbit&limit=50#x" = false
  /\ search_term_formatted "hobbit&limit=50#x" = "hobbit&limit=50#x"
  /\ URL "hobbit&limit=50#x"
     = "https://openlibrary.org/search.json?title=" +:+ "hobbit&limit=50#x"
       +:+ "&fields=title,author_name&limit=1".
Proof.
  split; [reflexivity|].
  apply (space_free_term_verbatim "hobbit&limit=50#x"); reflexivity.
Defined.

(** ** Inverting subscripts and binds *)

Lemma bind_Return_inv {A B : Type} (m : outcome A) (f : A -> outcome B) (b : B) :
  m ≫= f = Return b -> exists a : A, m = Return a /\ f a = Return b.
Proof. destruct m as [a|e]; cbn; [eauto | discriminate]. Qed.

Lemma bind_Raise_inv {A B : Type} (m : outcome A) (f : A -> outcome B) (e : exn) :
  m ≫= f = Raise e -> m = Raise e \/ exists a : A, m = Return a /\ f a = Raise e.
Proof. destruct m as [a|e']; cbn; [eauto | intros [= ->]; now left]. Qed.

Lemma getitem_key_inv (v x : json) (key : string) :
  getitem v (SubStr key) = Return x ->
  exists members : gmap string json, v = JObj members /\ members !! key = Some x.
Proof.
  destruct v as [| | | | |items|members]; cbn; try discriminate.
  destruct (members !! key) as [y|] eqn:E; [|discriminate].
  intros [= ->]. eauto.
Qed.

Lemma code_points_cons (b : ascii) (s : string) :
  exists (p : string) (rest : list string), PyStr.code_points (String b s) = p :: rest.
Proof.
  unfold PyStr.code_points. cbn [PyStr.scan].
  destruct (PyStr.scan s) as [tail points].
  destruct (PyStr.is_continuation b); eauto.
Qed.

Lemma getitem_first_point (s p : string) (rest : list string) :
  PyStr.code_points s = p :: rest -> getitem (JStr s) (SubInt 0) = Return (JStr p).
Proof. intros E. cbn [getitem]. now rewrite E. Qed.

Lemma getitem_zero_inv (v x : json) :
  getitem v (SubInt 0) = Return x ->
  (exists rest : list json, v = JArr (x :: rest))
  \/ (exists (s p : string) (rest : list string),
        v = JStr s /\ PyStr.code_points s = p :: rest /\ x = JStr p).
Proof.
  destruct v as [| | | |s|items|members]; cbn [getitem]; try discriminate.
  - destruct (PyStr.code_points s) as [|p rest] eqn:E; cbn; [discriminate|].
    intros [= <-]. right. now exists s, p, rest.
  - destruct items as [|y rest]; cbn; [discriminate|]. intros [= <-]. left; eauto.
Qed.

Lemma getitem_key_error (v : json) (key : string) (e : exn) :
  getitem v (SubStr key) = Raise e -> e = TypeError \/ e = KeyError (SubStr key).
Proof.
  destruct v as [| | | | |items|members]; cbn; try (intros [= <-]; now left).
  destruct (members !! key); [discriminate | intros [= <-]; now right].
Qed.

Lemma getitem_zero_error (v : json) (e : exn) :
  getitem v (SubInt 0) = Raise e ->
  e = TypeError \/ e = IndexError \/ e = KeyError (SubInt 0).
Proof.
  destruct v as [| | | |s|items|members]; cbn [getitem]; try (intros [= <-]; now left).
  - destruct (PyStr.code_points s); cbn; [intros [= <-]; auto | discriminate].
  - destruct items; cbn; [intros [= <-]; auto | discriminate].
  - intros [= <-]; auto.
Qed.

Lemma getitem_key_not_dict (v : json) (key : string) :
  (forall members : gmap string json, v <> JObj members) ->
  getitem v (SubStr key) = Raise TypeError.
Proof. destruct v; try reflexivity. intros H. now destruct (H members). Qed.

(** ** How the search method fails *)

Section Failures.

Variable repr_other : json -> string.

(** X3. When the network gives no response, the method raises the exception
    of [requests.get], after that one call. *)
Theorem unreachable_network_raises (self : Search) (search_term : string) (w : world) :
  next_reply w (URL search_term) = Unreachable ->
  get_user_search_results repr_other self search_term w
  = (Raise RequestException, log (HttpGet (URL search_term)) w).
Proof. intros H. now rewrite get_user_search_results_run, H. Qed.

(** X4. Whatever [response.json()] raises, the method raises, whatever the
    status of the response, after its one call of [requests.get]. *)
Theorem json_exception_propagates
    (self : Search) (search_term : string) (w : world) (r : Response) (e : exn) :
  next_reply w (URL search_term) = Responded r ->
  json_outcome r = Raise e ->
  get_user_search_results repr_other self search_term w
  = (Raise e, log (HttpGet (URL search_term)) w).
Proof. intros Hr He. now rewrite get_user_search_results_run, Hr, He. Qed.

(** X5. A body that is not a JSON object (a list, a string, a number, [null])
    raises [TypeError]. *)
Theorem top_level_not_dict_raises
    (self : Search) (search_term : string) (w : world) (r : Response) (v : json) :
  next_reply w (URL search_term) = Responded r ->
  decoded r = Some v ->
  (forall members : gmap string json, v <> JObj members) ->
  fst (get_user_search_results repr_other self search_term w) = Raise TypeError.
Proof.
  intros Hr Hv Hnd.
  rewrite (get_user_search_results_decoded _ _ _ _ _ _ Hr Hv).
  unfold response_formatted. now rewrite (getitem_key_not_dict _ _ Hnd).
Qed.

(** X6. A JSON object without [docs] raises the [KeyError] of [docs]. *)
Theorem missing_docs_raises
    (self : Search) (search_term : string) (w : world) (r : Response)
    (members : gmap string json) :
  next_reply w (URL search_term) = Responded r ->
  decoded r = Some (JObj members) ->
  members !! "docs" = None ->
  fst (get_user_search_results repr_other self search_term w)
  = Raise (KeyError (SubStr "docs")).
Proof.
  intros Hr Hv Hdocs.
  rewrite (get_user_search_results_decoded _ _ _ _ _ _ Hr Hv).
  unfold response_formatted. now rewrite (getitem_no_member _ _ Hdocs).
Qed.

(** X7. When [docs] is not a list the method raises: the [KeyError] of [0] for a
    [dict], [IndexError] for an empty string, [TypeError] otherwise (a
    non-empty string yields its first character, which has no [title]). *)
Theorem docs_not_list_raises
    (self : Search) (search_term : string) (w : world) (r : Response)
    (members : gmap string json) (d : json) :
  next_reply w (URL search_term) = Responded r ->
  decoded r = Some (JObj members) ->
  members !! "docs" = Some d ->
  (forall items : list json, d <> JArr items) ->
  fst (get_user_search_results repr_other self search_term w)
  = Raise (match d with
           | JObj _ => KeyError (SubInt 0)
           | JStr "" => IndexError
           | _ => TypeError
           end).
Proof.
  intros Hr Hv Hdocs Hnl.
  rewrite (get_user_search_results_decoded _ _ _ _ _ _ Hr Hv).
  unfold response_formatted. rewrite (getitem_member _ _ _ Hdocs).
  destruct d as [| | | |s|items|doc]; try reflexivity.
  - destruct s as [|b s]; [reflexivity|].
    destruct (code_points_cons b s) as (p & ps & E).
    cbn [mbind outcome_bind]. now rewrite (getitem_first_point _ _ _ E).
  - now destruct (Hnl items).
Qed.

(** X8. When the first document is not a [dict], the method raises [TypeError]. *)
Theorem first_doc_not_dict_raises
    (self : Search) (search_term : string) (w : world) (r : Response)
    (members : gmap string json) (x : json) (docs : list json) :
  next_reply w (URL search_term) = Responded r ->
  decoded r = Some (JObj members) ->
  members !! "docs" = Some (JArr (x :: docs)) ->
  (forall doc : gmap string json, x <> JObj doc) ->
  fst (get_user_search_results repr_other self search_term w) = Raise TypeError.
Proof.
  intros Hr Hv Hdocs Hnd.
  rewrite (get_user_search_results_decoded _ _ _ _ _ _ Hr Hv).
  unfold response_formatted. rewrite (getitem_member _ _ _ Hdocs).
  cbn [mbind outcome_bind]. rewrite getitem_first.
  cbn [mbind outcome_bind]. rewrite (getitem_key_not_dict x "title" Hnd). reflexivity.
Qed.

(** X9. When the first document has a title and no [author_name] key, the
    method raises the [KeyError] of [author_name]. *)
Theorem missing_author_name_raises
    (self : Search) (search_term : string) (w : world) (r : Response)
    (members doc : gmap string json) (docs : list json) (title : json) :
  next_reply w (URL search_term) = Responded r ->
  decoded r = Some (JObj members) ->
  members !! "docs" = Some (JArr (JObj doc :: docs)) ->
  doc !! "title" = Some title ->
  doc !! "author_name" = None ->
  fst (get_user_search_results repr_other self search_term w)
  = Raise (KeyError (SubStr "author_name")).
Proof.
  intros Hr Hv Hdocs Htitle Hnames.
  rewrite (get_user_search_results_decoded _ _ _ _ _ _ Hr Hv).
  rewrite (response_formatted_first_doc _ _ _ _ Hdocs).
  now rewrite (getitem_member _ _ _ Htitle), (getitem_no_member _ _ Hnames).
Qed.

(** X10. A title of any JSON type is accepted, not only a string, and goes
    into the result as [str()] renders it: the title [1937] gives the line
    [Title: 1937]. *)
Theorem any_title_is_rendered
    (self : Search) (search_term : string) (w : world) (r : Response)
    (members doc : gmap string json) (docs names : list json) (title author : json) :
  next_reply w (URL search_term) = Responded r ->
  decoded r = Some (JObj members) ->
  members !! "docs" = Some (JArr (JObj doc :: docs)) ->
  doc !! "title" = Some title ->
  doc !! "author_name" = Some (JArr (author :: names)) ->
  fst (get_user_search_results repr_other self search_term w)
  = Return ("Title: " +:+ format_value repr_other title +:+ PyStr.nl
            +:+ "Author: " +:+ format_value repr_other author).
Proof.
  intros Hr Hv Hdocs Htitle Hnames.
  rewrite (get_user_search_results_decoded _ _ _ _ _ _ Hr Hv).
  rewrite (response_formatted_first_doc _ _ _ _ Hdocs).
  now rewrite (getitem_member _ _ _ Htitle), (getitem_member _ _ _ Hnames).
Qed.

(** X11. When [author_name] is a string and not a list of strings, the author
    printed is its first character: the first code point, of one byte or
    of several. *)
Theorem author_name_string_first_char
    (self : Search) (search_term : string) (w : world) (r : Response)
    (members doc : gmap string json) (docs : list json) (title : json)
    (author first : string) (others : list string) :
  next_reply w (URL search_term) = Responded r ->
  decoded r = Some (JObj members) ->
  members !! "docs" = Some (JArr (JObj doc :: docs)) ->
  doc !! "title" = Some title ->
  doc !! "author_name" = Some (JStr author) ->
  PyStr.code_points author = first :: others ->
  fst (get_user_search_results repr_other self search_term w)
  = Return ("Title: " +:+ format_value repr_other title +:+ PyStr.nl
            +:+ "Author: " +:+ first).
Proof.
  intros Hr Hv Hdocs Htitle Hnames Hfirst.
  rewrite (get_user_search_results_decoded _ _ _ _ _ _ Hr Hv).
  rewrite (response_formatted_first_doc _ _ _ _ Hdocs).
  rewrite (getitem_member _ _ _ Htitle), (getitem_member _ _ _ Hnames).
  cbn [mbind outcome_bind]. now rewrite (getitem_first_point _ _ _ Hfirst).
Qed.

End Failures.

(** ** When the search method returns *)

Section Success.

Variable repr_other : json -> string.

(** The f-string yields a string exactly when the response is a [dict]
    whose [docs] is a non-empty list, whose first document is a [dict] with
    a [title] and an [author_name], and [author_name] is a non-empty list
    or a non-empty string. *)
Lemma response_formatted_Return_iff (v : json) (s : string) :
  response_formatted repr_other v = Return s <->
  exists (members doc : gmap string json) (docs : list json) (title names author : json),
    v = JObj members
    /\ members !! "docs" = Some (JArr (JObj doc :: docs))
    /\ doc !! "title" = Some title
    /\ doc !! "author_name" = Some names
    /\ ((exists rest : list json, names = JArr (author :: rest))
        \/ (exists (text first : string) (others : list string),
              names = JStr text
              /\ PyStr.code_points text = first :: others
              /\ author = JStr first))
    /\ s = "Title: " +:+ format_value repr_other title +:+ PyStr.nl
           +:+ "Author: " +:+ format_value repr_other author.
Proof.
  split.
  - unfold response_formatted. intros H.
    apply bind_Return_inv in H as (title & Ht & H).
    apply bind_Return_inv in H as (author & Ha & [= <-]).
    apply bind_Return_inv in Ht as (d & Hd & Ht).
    apply bind_Return_inv in Ht as (x & Hx & Ht).
    apply getitem_key_inv in Hd as (members & -> & Hdocs).
    apply getitem_key_inv in Ht as (doc & -> & Htitle).
    apply getitem_zero_inv in Hx as [[docs ->]|(text & p & rest & _ & _ & [=])].
    rewrite (getitem_member _ _ _ Hdocs) in Ha. cbn [mbind outcome_bind] in Ha.
    rewrite getitem_first in Ha. cbn [mbind outcome_bind] in Ha.
    apply bind_Return_inv in Ha as (names & Hn & Ha).
    apply getitem_key_inv in Hn as (doc' & [= <-] & Hnames).
    exists members, doc, docs, title, names, author.
    repeat split; auto using getitem_zero_inv.
  - intros (members & doc & docs & title & names & author
            & -> & Hdocs & Htitle & Hnames & Hfirst & ->).
    rewrite (response_formatted_first_doc _ _ _ _ Hdocs).
    rewrite (getitem_member _ _ _ Htitle), (getitem_member _ _ _ Hnames).
    cbn [mbind outcome_bind].
    destruct Hfirst as [[rest ->]|(text & first & others & -> & E & ->)].
    + reflexivity.
    + now rewrite (getitem_first_point _ _ _ E).
Qed.

(** Whatever the f-string raises is a [TypeError], an [IndexError], or the
    [KeyError] of [docs], [0], [title] or [author_name]. *)
Lemma response_formatted_Raise (v : json) (e : exn) :
  response_formatted repr_other v = Raise e -> subscript_error e = true.
Proof.
  assert (K : forall x key, String.eqb key "docs" || String.eqb key "title"
                            || String.eqb key "author_name" = true ->
              getitem x (SubStr key) = Raise e -> subscript_error e = true).
  { intros x key Hk [->| ->]%getitem_key_error; [reflexivity | exact Hk]. }
  assert (Z : forall x, getitem x (SubInt 0) = Raise e -> subscript_error e = true).
  { now intros x [->|[->| ->]]%getitem_zero_error. }
  assert (D : forall A (k : json -> outcome A),
              (forall doc, k doc = Raise e -> subscript_error e = true) ->
              (docs ← getitem v (SubStr "docs"); doc ← getitem docs (SubInt 0); k doc)
              = Raise e -> subscript_error e = true).
  { intros A k Hk [H|(docs & _ & [H|(doc & _ & H)]%bind_Raise_inv)]%bind_Raise_inv.
    - now apply K in H.
    - now apply Z in H.
    - now apply Hk in H. }
  unfold response_formatted.
  intros [H|(title & _ & [H|(author & _ & [=])]%bind_Raise_inv)]%bind_Raise_inv.
  - revert H. apply D. intros doc. now apply K.
  - revert H. apply D.
    intros doc [H|(names & _ & H)]%bind_Raise_inv; [now apply K in H | now apply Z in H].
Qed.

(** The method returns exactly when the network responds, [json()] returns
    and the f-string yields a string. *)
Lemma get_user_search_results_Return_iff
    (self : Search) (search_term : string) (w : world) (s : string) :
  fst (get_user_search_results repr_other self search_term w) = Return s <->
  exists (r : Response) (v : json),
    next_reply w (URL search_term) = Responded r
    /\ decoded r = Some v
    /\ response_formatted repr_other v = Return s.
Proof.
  rewrite get_user_search_results_run. cbn [fst]. split.
  - destruct (next_reply w (URL search_term)) as [r| |]; [|discriminate..].
    intros (v & Hv & H)%bind_Return_inv. exists r, v.
    now rewrite decoded_Some.
  - intros (r & v & -> & Hv%decoded_Some & H). now rewrite Hv.
Qed.

(** X12. The method returns a string exactly when the network responds,
    [json()] returns a [dict] whose [docs] is a non-empty list, the first
    document is a [dict] with a [title] and an [author_name], and
    [author_name] is a non-empty list or a non-empty string; the string is
    then the two lines made of that title and of the first item, or first
    character, of [author_name]. *)
Theorem returns_iff_first_doc_complete
    (self : Search) (search_term : string) (w : world) (s : string) :
  fst (get_user_search_results repr_other self search_term w) = Return s <->
  exists (r : Response) (members doc : gmap string json) (docs : list json)
         (title names author : json),
    next_reply w (URL search_term) = Responded r
    /\ decoded r = Some (JObj members)
    /\ members !! "docs" = Some (JArr (JObj doc :: docs))
    /\ doc !! "title" = Some title
    /\ doc !! "author_name" = Some names
    /\ ((exists rest : list json, names = JArr (author :: rest))
        \/ (exists (text first : string) (others : list string),
              names = JStr text
              /\ PyStr.code_points text = first :: others
              /\ author = JStr first))
    /\ s = "Title: " +:+ format_value repr_other title +:+ PyStr.nl
           +:+ "Author: " +:+ format_value repr_other author.
Proof.
  rewrite get_user_search_results_Return_iff. split.
  - intros (r & v & Hr & Hv & H). apply response_formatted_Return_iff in H
      as (members & doc & docs & title & names & author & -> & H).
    exists r, members, doc, docs, title, names, author. auto.
  - intros (r & members & doc & docs & title & names & author & Hr & Hv & H).
    exists r, (JObj members). repeat split; [exact Hr | exact Hv |].
    apply response_formatted_Return_iff.
    exists members, doc, docs, title, names, author. auto.
Qed.

(** X13. Every exception the method raises has one of three origins:
    [requests.get] raised, having no response to return; [response.json()]
    raised it; or a subscript of the f-string raised it, and it is then a
    [TypeError], an [IndexError], or the [KeyError] of [docs], [0], [title]
    or [author_name]. *)
Theorem exceptions_by_origin
    (self : Search) (search_term : string) (w : world) (e : exn) :
  fst (get_user_search_results repr_other self search_term w) = Raise e ->
  (e = RequestException
   /\ forall r : Response, next_reply w (URL search_term) <> Responded r)
  \/ (exists r : Response,
        next_reply w (URL search_term) = Responded r /\ json_outcome r = Raise e)
  \/ (exists (r : Response) (v : json),
        next_reply w (URL search_term) = Responded r
        /\ json_outcome r = Return v
        /\ response_formatted repr_other v = Raise e
        /\ subscript_error e = true).
Proof.
  rewrite get_user_search_results_run. cbn [fst].
  destruct (next_reply w (URL search_term)) as [r| |].
  - intros [H|(v & Hv & H)]%bind_Raise_inv; right; [left | right].
    + now exists r.
    + exists r, v. eauto using response_formatted_Raise.
  - intros [= <-]. left. split; [reflexivity | discriminate].
  - intros [= <-]. left. split; [reflexivity | discriminate].
Qed.


End Success.

(** ** The status code *)

Section Status.

Variable repr_other : json -> string.

(** C7, as the code has it. The status code is never read, so a response
    of non-success status is handled as any response with the same body
    is, a successful one included: the method returns the two lines when
    [json()] returns a [dict] whose first document has a [title] and an
    [author_name] with a first item, and it propagates a fatal error
    otherwise, which is the exception [json()] raised or the [TypeError],
    [IndexError] or [KeyError] of a subscript. *)
Theorem outcome_ignores_status
    (self : Search) (search_term : string) (w : world) (r : Response) :
  next_reply w (URL search_term) = Responded r ->
  is_success (status_code r) = false ->
  (forall (self' : Search) (term' : string) (w' : world) (r' : Response),
      next_reply w' (URL term') = Responded r' ->
      json_outcome r' = json_outcome r ->
      fst (get_user_search_results repr_other self' term' w')
      = fst (get_user_search_results repr_other self search_term w))
  /\ (forall s : string,
        fst (get_user_search_results repr_other self search_term w) = Return s <->
        exists (members doc : gmap string json) (docs : list json)
               (title names author : json),
          decoded r = Some (JObj members)
          /\ members !! "docs" = Some (JArr (JObj doc :: docs))
          /\ doc !! "title" = Some title
          /\ doc !! "author_name" = Some names
          /\ ((exists rest : list json, names = JArr (author :: rest))
              \/ (exists (text first : string) (others : list string),
                    names = JStr text
                    /\ PyStr.code_points text = first :: others
                    /\ author = JStr first))
          /\ s = "Title: " +:+ format_value repr_other title +:+ PyStr.nl
                 +:+ "Author: " +:+ format_value repr_other author)
  /\ (forall e : exn,
        fst (get_user_search_results repr_other self search_term w) = Raise e ->
        json_outcome r = Raise e
        \/ (exists v : json,
              decoded r = Some v
              /\ response_formatted repr_other v = Raise e
              /\ subscript_error e = true)).
Proof.
  intros Hr _. split; [|split].
  - intros self' term' w' r' Hr' Hsame.
    now rewrite !get_user_search_results_run, Hr, Hr', Hsame.
  - intros s. rewrite get_user_search_results_run, Hr. cbn [fst]. split.
    + intros (v & Hv%decoded_Some & H)%bind_Return_inv.
      apply response_formatted_Return_iff in H
        as (members & doc & docs & title & names & author & -> & H).
      exists members, doc, docs, title, names, author. auto.
    + intros (members & doc & docs & title & names & author & Hv%decoded_Some & H).
      rewrite Hv. cbn [mbind outcome_bind]. apply response_formatted_Return_iff.
      exists members, doc, docs, title, names, author. auto.
  - intros e. rewrite get_user_search_results_run, Hr. cbn [fst].
    intros [H|(v & Hv%decoded_Some & H)]%bind_Raise_inv; [now left | right].
    exists v. eauto using response_formatted_Raise.
Qed.

End Status.

(** ** The methods with the fixed search term *)


(** X16. [get_search_results] returns the raw body of whatever response it
    receives, of any status and JSON or not, after one call of
    [requests.get] for the title [the lord of the rings]; it writes
    nothing. *)
Theorem get_search_results_returns_body (self : Search) (w : world) (r : Response) :
  next_reply w (URL "the lord of the rings") = Responded r ->
  get_search_results self w
  = (Return (content r),
     log (HttpGet ("https://openlibrary.org/search.json?title=the+lord+of+the+rings"
                   +:+ "&fields=title,author_name&limit=1")) w).
Proof.
  intros Hr. unfold get_search_results, mbind, M_bind, requests_get. now rewrite Hr.
Qed.


Section Agreement.

Variable repr_other : json -> string.


(** X15. Nothing is cached: a second call with the same term calls
    [requests.get] a second time, and its result is made from the second
    response alone. *)
Theorem second_call_asks_again
    (self : Search) (search_term : string) (w : world) (r : Response) (v : json) :
  network w (S (requests_in (trace w))) (URL search_term) = Responded r ->
  decoded r = Some v ->
  get_user_search_results repr_other self search_term
    (snd (get_user_search_results repr_other self search_term w))
  = (response_formatted repr_other v,
     {| network := network w;
        stdin := stdin w;
        trace := trace w ++ [HttpGet (URL search_term); HttpGet (URL search_term)] |}).
Proof.
  intros Hr Hv%decoded_Some. rewrite !get_user_search_results_run. cbn [snd].
  unfold next_reply, log; cbn [network trace stdin].
  rewrite requests_in_app. cbn [requests_in]. rewrite Nat.add_1_r, Hr, Hv.
  cbn [mbind outcome_bind]. now rewrite <- app_assoc.
Qed.

End Agreement.

(** ** All runs of the script *)

Section ScriptRuns.

Variable repr_other : json -> string.

(** The script, case by case: no line to read; a line and a search that
    raises; a line and a search that returns. *)
Lemma script_run (w : world) :
  script repr_other w =
  match stdin w with
  | [] => (Raise EOFError, log (StdoutWrite "Enter a book title: ") w)
  | line :: rest =>
      let asked := [StdoutWrite "Enter a book title: "; StdinRead line; HttpGet (URL line)] in
      match fst (get_user_search_results repr_other mkSearch line w) with
      | Return result =>
          (Return tt,
           {| network := network w; stdin := rest;
              trace := trace w ++ asked
                       ++ [StdoutWrite ("Search Result:" +:+ PyStr.nl +:+ PyStr.nl);
                           StdoutWrite (result +:+ PyStr.nl)] |})
      | Raise e =>
          (Raise e, {| network := network w; stdin := rest; trace := trace w ++ asked |})
      end
  end.
Proof.
  unfold script, mbind, M_bind, input. cbn [log stdin network trace].
  destruct (stdin w) as [|line rest]; [reflexivity|].
  rewrite !get_user_search_results_run. unfold next_reply. cbn [log stdin network trace fst].
  rewrite !requests_in_app, !Nat.add_0_r.
  match goal with
  | |- context [match ?o with Return _ => _ | Raise _ => _ end] =>
      destruct o as [result|e]
  end;
    unfold print, log; cbn [stdin network trace]; now rewrite <- !app_assoc.
Qed.

(** X19. At end of input the script raises [EOFError] after writing the prompt:
    no request is sent and nothing else is written. *)
Theorem script_without_input (w : world) :
  stdin w = [] ->
  script repr_other w = (Raise EOFError, log (StdoutWrite "Enter a book title: ") w).
Proof. intros H. now rewrite script_run, H. Qed.


End ScriptRuns.

(** ** The further properties on the sample data *)

Lemma unreachable_network_raises_sample :
  next_reply (offline []) (URL "the hobbit") = Unreachable
  /\ get_user_search_results repr_unused mkSearch "the hobbit" (offline [])
     = (Raise RequestException, log (HttpGet (URL "the hobbit")) (offline [])).
Proof.
  split; [reflexivity|].
  apply (unreachable_network_raises repr_unused mkSearch "the hobbit" (offline []));
    reflexivity.
Defined.

Lemma json_exception_propagates_sample :
  next_reply (serving overlong_response []) (URL "the hobbit") = Responded overlong_response
  /\ json_outcome overlong_response = Raise ValueError
  /\ get_user_search_results repr_unused mkSearch "the hobbit" (serving overlong_response [])
     = (Raise ValueError, log (HttpGet (URL "the hobbit")) (serving overlong_response [])).
Proof.
  do 2 (split; [reflexivity|]).
  apply (json_exception_propagates repr_unused mkSearch "the hobbit"
           (serving overlong_response []) overlong_response ValueError);
    reflexivity.
Defined.

Lemma top_level_not_dict_raises_sample :
  next_reply (serving top_level_list_response []) (URL "the hobbit")
  = Responded top_level_list_response
  /\ decoded top_level_list_response = Some (JArr [JStr "The Hobbit"])
  /\ (forall members : gmap string json, JArr [JStr "The Hobbit"] <> JObj members)
  /\ fst (get_user_search_results repr_unused mkSearch "the hobbit"
            (serving top_level_list_response []))
     = Raise TypeError.
Proof.
  do 2 (split; [reflexivity|]). split; [discriminate|].
  apply (top_level_not_dict_raises repr_unused mkSearch "the hobbit"
           (serving top_level_list_response []) top_level_list_response
           (JArr [JStr "The Hobbit"]));
    [reflexivity | reflexivity | discriminate].
Defined.

Lemma missing_docs_raises_sample :
  next_reply (serving no_docs_key_response []) (URL "the hobbit")
  = Responded no_docs_key_response
  /\ decoded no_docs_key_response = Some (JObj no_docs_key_members)
  /\ no_docs_key_members !! "docs" = None
  /\ fst (get_user_search_results repr_unused mkSearch "the hobbit"
            (serving no_docs_key_response []))
     = Raise (KeyError (SubStr "docs")).
Proof.
  do 3 (split; [reflexivity|]).
  apply (missing_docs_raises repr_unused mkSearch "the hobbit"
           (serving no_docs_key_response []) no_docs_key_response no_docs_key_members);
    reflexivity.
Defined.

Lemma docs_not_list_raises_sample :
  next_reply (serving docs_dict_response []) (URL "the hobbit")
  = Responded docs_dict_response
  /\ decoded docs_dict_response = Some (JObj docs_dict_members)
  /\ docs_dict_members !! "docs" = Some (JObj ∅)
  /\ (forall items : list json, JObj ∅ <> JArr items)
  /\ fst (get_user_search_results repr_unused mkSearch "the hobbit"
            (serving docs_dict_response []))
     = Raise (KeyError (SubInt 0)).
Proof.
  do 3 (split; [reflexivity|]). split; [discriminate|].
  apply (docs_not_list_raises repr_unused mkSearch "the hobbit"
           (serving docs_dict_response []) docs_dict_response docs_dict_members (JObj ∅));
    [reflexivity | reflexivity | reflexivity | discriminate].
Defined.

Lemma first_doc_not_dict_raises_sample :
  next_reply (serving bare_title_response []) (URL "the hobbit")
  = Responded bare_title_response
  /\ decoded bare_title_response = Some (JObj bare_title_members)
  /\ bare_title_members !! "docs" = Some (JArr [JStr "The Hobbit"])
  /\ (forall doc : gmap string json, JStr "The Hobbit" <> JObj doc)
  /\ fst (get_user_search_results repr_unused mkSearch "the hobbit"
            (serving bare_title_response []))
     = Raise TypeError.
Proof.
  do 3 (split; [reflexivity|]). split; [discriminate|].
  apply (first_doc_not_dict_raises repr_unused mkSearch "the hobbit"
           (serving bare_title_response []) bare_title_response bare_title_members
           (JStr "The Hobbit") []);
    [reflexivity | reflexivity | reflexivity | discriminate].
Defined.

Lemma missing_author_name_raises_sample :
  next_reply (serving authorless_response []) (URL "beowulf")
  = Responded authorless_response
  /\ decoded authorless_response = Some (JObj authorless_members)
  /\ authorless_members !! "docs" = Some (JArr [JObj authorless_doc])
  /\ authorless_doc !! "title" = Some (JStr "Beowulf")
  /\ authorless_doc !! "author_name" = None
  /\ fst (get_user_search_results repr_unused mkSearch "beowulf"
            (serving authorless_response []))
     = Raise (KeyError (SubStr "author_name")).
Proof.
  do 5 (split; [reflexivity|]).
  apply (missing_author_name_raises repr_unused mkSearch "beowulf"
           (serving authorless_response []) authorless_response
           authorless_members authorless_doc [] (JStr "Beowulf"));
    reflexivity.
Defined.

Lemma any_title_is_rendered_sample :
  next_reply (serving numbered_response []) (URL "the hobbit")
  = Responded numbered_response
  /\ decoded numbered_response = Some (JObj numbered_members)
  /\ numbered_members !! "docs" = Some (JArr [JObj numbered_doc])
  /\ numbered_doc !! "title" = Some (JInt 1937)
  /\ numbered_doc !! "author_name" = Some (JArr [JStr "J.R.R. Tolkien"])
  /\ fst (get_user_search_results repr_unused mkSearch "the hobbit"
            (serving numbered_response []))
     = Return ("Title: 1937" +:+ PyStr.nl +:+ "Author: J.R.R. Tolkien").
Proof.
  do 5 (split; [reflexivity|]).
  apply (any_title_is_rendered repr_unused mkSearch "the hobbit"
           (serving numbered_response []) numbered_response
           numbered_members numbered_doc [] [] (JInt 1937) (JStr "J.R.R. Tolkien"));
    reflexivity.
Defined.

Lemma author_name_string_first_char_sample :
  next_reply (serving loose_response []) (URL "kojinteki na taiken")
  = Responded loose_response
  /\ decoded loose_response = Some (JObj loose_members)
  /\ loose_members !! "docs" = Some (JArr [JObj loose_doc])
  /\ loose_doc !! "title" = Some JNull
  /\ loose_doc !! "author_name" = Some (JStr "Ōe Kenzaburō")
  /\ PyStr.code_points "Ōe Kenzaburō"
     = ["Ō"; "e"; " "; "K"; "e"; "n"; "z"; "a"; "b"; "u"; "r"; "ō"]
  /\ String.length "Ō" = 2
  /\ fst (get_user_search_results repr_unused mkSearch "kojinteki na taiken"
            (serving loose_response []))
     = Return ("Title: None" +:+ PyStr.nl +:+ "Author: Ō").
Proof.
  do 7 (split; [reflexivity|]).
  apply (author_name_string_first_char repr_unused mkSearch "kojinteki na taiken"
           (serving loose_response []) loose_response
           loose_members loose_doc [] JNull "Ōe Kenzaburō" "Ō"
           ["e"; " "; "K"; "e"; "n"; "z"; "a"; "b"; "u"; "r"; "ō"]);
    reflexivity.
Defined.

Lemma exceptions_by_origin_sample :
  fst (get_user_search_results repr_unused mkSearch "beowulf"
         (serving anonymous_response []))
  = Raise IndexError
  /\ ((IndexError = RequestException
       /\ forall r : Response,
            next_reply (serving anonymous_response []) (URL "beowulf") <> Responded r)
      \/ (exists r : Response,
            next_reply (serving anonymous_response []) (URL "beowulf") = Responded r
            /\ json_outcome r = Raise IndexError)
      \/ (exists (r : Response) (v : json),
            next_reply (serving anonymous_response []) (URL "beowulf") = Responded r
            /\ json_outcome r = Return v
            /\ response_formatted repr_unused v = Raise IndexError
            /\ subscript_error IndexError = true)).
Proof.
  split; [reflexivity|].
  apply (exceptions_by_origin repr_unused mkSearch "beowulf"
           (serving anonymous_response []) IndexError);
    reflexivity.
Defined.


Lemma get_search_results_returns_body_sample :
  next_reply (serving error_page []) (URL "the lord of the rings") = Responded error_page
  /\ get_search_results mkSearch (serving error_page [])
     = (Return "<html>Service Unavailable</html>",
        log (HttpGet ("https://openlibrary.org/search.json?title=the+lord+of+the+rings"
                      +:+ "&fields=title,author_name&limit=1"))
            (serving error_page [])).
Proof.
  split; [reflexivity|].
  apply (get_search_results_returns_body mkSearch (serving error_page []) error_page);
    reflexivity.
Defined.

Lemma second_call_asks_again_sample :
  network (changing (hobbit_response 200) no_docs_response)
    (S (requests_in (trace (changing (hobbit_response 200) no_docs_response))))
    (URL "the hobbit")
  = Responded no_docs_response
  /\ decoded no_docs_response = Some (JObj no_docs_members)
  /\ fst (get_user_search_results repr_unused mkSearch "the hobbit"
            (changing (hobbit_response 200) no_docs_response))
     = Return hobbit_formatted
  /\ get_user_search_results repr_unused mkSearch "the hobbit"
       (snd (get_user_search_results repr_unused mkSearch "the hobbit"
               (changing (hobbit_response 200) no_docs_response)))
     = (Raise IndexError,
        {| network := network (changing (hobbit_response 200) no_docs_response);
           stdin := [];
           trace := [HttpGet (URL "the hobbit"); HttpGet (URL "the hobbit")] |}).
Proof.
  do 3 (split; [reflexivity|]).
  apply (second_call_asks_again repr_unused mkSearch "the hobbit"
           (changing (hobbit_response 200) no_docs_response)
           no_docs_response (JObj no_docs_members));
    reflexivity.
Defined.

Lemma script_without_input_sample :
  stdin (serving (hobbit_response 200) []) = []
  /\ script repr_unused (serving (hobbit_response 200) [])
     = (Raise EOFError,
        log (StdoutWrite "Enter a book title: ") (serving (hobbit_response 200) [])).
Proof.
  split; [reflexivity|].
  apply (script_without_input repr_unused (serving (hobbit_response 200) []));
    reflexivity.
Defined.

Lemma script_failure_prints_nothing_sample :
  stdin (serving error_page ["the hobbit"; "unread"]) = ["the hobbit"; "unread"]
  /\ fst (get_user_search_results repr_unused mkSearch "the hobbit"
            (serving error_page ["the hobbit"; "unread"]))
     = Raise JSONDecodeError
  /\ script repr_unused (serving error_page ["the hobbit"; "unread"])
     = (Raise JSONDecodeError,
        {| network := network (serving error_page ["the hobbit"; "unread"]);
           stdin := ["unread"];
           trace := [StdoutWrite "Enter a book title: "; StdinRead "the hobbit";
                     HttpGet (URL "the hobbit")] |}).
Proof.
  do 2 (split; [reflexivity|]).
  apply (script_failure_prints_nothing repr_unused
           (serving error_page ["the hobbit"; "unread"]) "the hobbit" ["unread"]
           JSONDecodeError);
    reflexivity.
Defined.

(** C6, as the claim has it, fails: when the service redirects, the one call
    of the method sends two GET requests, the second to the redirect's
    target. *)
Lemma redirect_sends_second_get :
  wire_gets (serving redirected_response []) = []
  /\ requests_in (trace (snd (get_user_search_results repr_unused mkSearch "the hobbit"
                                (serving redirected_response []))))
     = 1
  /\ wire_gets (snd (get_user_search_results repr_unused mkSearch "the hobbit"
                       (serving redirected_response [])))
     = [URL "the hobbit"; redirect_target]
  /\ length (wire_gets (snd (get_user_search_results repr_unused mkSearch "the hobbit"
                               (serving redirected_response []))))
     <> 1.
Proof. repeat split; try reflexivity. discriminate. Qed.

(** The status 404 changes nothing to what is made of the Hobbit body. *)
Lemma outcome_ignores_status_sample :
  next_reply (serving (hobbit_response 404) []) (URL "the hobbit")
  = Responded (hobbit_response 404)
  /\ is_success (status_code (hobbit_response 404)) = false
  /\ fst (get_user_search_results repr_unused mkSearch "the hobbit"
            (serving (hobbit_response 200) []))
     = fst (get_user_search_results repr_unused mkSearch "the hobbit"
              (serving (hobbit_response 404) [])).
Proof.
  do 2 (split; [reflexivity|]).
  assert (Hr : next_reply (serving (hobbit_response 404) []) (URL "the hobbit")
               = Responded (hobbit_response 404)) by reflexivity.
  assert (Hs : is_success (status_code (hobbit_response 404)) = false) by reflexivity.
  apply (proj1 (outcome_ignores_status repr_unused mkSearch "the hobbit"
                  (serving (hobbit_response 404) []) (hobbit_response 404) Hr Hs)
           mkSearch "the hobbit" (serving (hobbit_response 200) [])
           (hobbit_response 200));
    reflexivity.
Defined.
